(** * Exception-to-sentinel wrappers around MuPDF (plato)

    The repository holds two C files, [mupdf_wrapper/mupdf_wrapper.c] and
    [src/wrapper/mupdf.c].  Each defines one macro, [WRAP], and a list of
    invocations of it; every invocation expands to a function [mp_<name>]
    that runs one MuPDF call inside [fz_try]/[fz_catch] and turns a thrown
    error into a fixed return value.

    The development has three layers:
    - [Base]: what the wrappers use from [<mupdf/fitz.h>] (C values and
      types, the library as an interface, the guarded region) and the
      small execution monad in which the macro body is written;
    - [MupdfWrapper] and [Mupdf]: the two source files, each with its own
      [WRAP] and its own list of invocations;
    - the properties of the generated functions. *)

From Stdlib Require Import ZArith List String Bool Lia.
Import ListNotations.
Local Open Scope Z_scope.
Local Open Scope list_scope.

(* ===================================================================== *)
(** ** C values, the MuPDF interface and the execution monad              *)
(* ===================================================================== *)

Module Base.

(** The struct types that the wrappers only ever name behind a pointer. *)
Inductive pointee : Type :=
  | fz_context | fz_document | fz_page | fz_outline | fz_link
  | fz_pixmap | fz_stext_page | fz_stream | fz_colorspace
  | fz_stext_options | char | const_char.

(** The C types that occur in the two files: [int], pointers, and the two
    structs passed by value. *)
Inductive ctype : Type :=
  | Tint
  | Tptr (p : pointee)
  | Tfz_location
  | Tfz_matrix.

(** Run-time values.  A pointer is its address ([NULL] is address 0); a
    struct passed by value is the list of its fields, which the wrappers
    never look into. *)
Inductive val : Type :=
  | Vint (n : Z)
  | Vptr (addr : Z)
  | Vstruct (fields : list Z).

Definition NULL : val := Vptr 0.

(** [has_type v t]: the value [v] is a value of C type [t]. *)
Definition has_type (v : val) (t : ctype) : bool :=
  match v, t with
  | Vint _, Tint => true
  | Vptr _, Tptr _ => true
  | Vstruct _, Tfz_location => true
  | Vstruct _, Tfz_matrix => true
  | _, _ => false
  end.

(** The two kinds of result a caller can test cheaply. *)
Inductive result_kind : Type := Handle | Integer.

Definition kind_of (t : ctype) : option result_kind :=
  match t with
  | Tptr _ => Some Handle
  | Tint => Some Integer
  | _ => None
  end.

(** What MuPDF records about a thrown error. *)
Record fz_error : Type := { errcode : Z; message : string }.

(** A library call either returns a value or throws. *)
Inductive fz_result : Type :=
  | Returns (v : val)
  | Throws (e : fz_error).

(** MuPDF itself is not part of the repository: it is an interface.  A
    library has a state (open files, allocations, caches) and answers a
    call, named by its C identifier and given its argument values, with a
    result and a new state. *)
Class Library : Type := {
  world : Type;
  fz_call : string -> list val -> world -> fz_result * world
}.

(** One entry of the call log: which library function was entered and with
    which argument values. *)
Definition call_event : Type := (string * list val)%type.

(** A parameter declaration, [type name]. *)
Definition param : Type := (ctype * string)%type.

(** A call expression [f(x1, ..., xn)] whose arguments are identifiers. *)
Record call_expr : Type := { callee : string; call_args : list string }.

(** The five arguments of one [WRAP(...)] line. *)
Record invocation : Type := {
  name : string;
  ret_type : ctype;
  failure_val : val;
  call : call_expr;
  va_args : list param
}.

(** An environment binds the parameters of a function to the values it
    was called with. *)
Definition env : Type := list (string * val).

Fixpoint lookup (x : string) (rho : env) : option val :=
  match rho with
  | [] => None
  | (y, v) :: rho' => if String.eqb x y then Some v else lookup x rho'
  end.

Fixpoint lookup_all (xs : list string) (rho : env) : option (list val) :=
  match xs with
  | [] => Some []
  | x :: xs' =>
      match lookup x rho, lookup_all xs' rho with
      | Some v, Some vs => Some (v :: vs)
      | _, _ => None
      end
  end.

(** Binding actual arguments to parameters, positionally.  A call with the
    wrong number of arguments is not a C program. *)
Fixpoint bind_params (ps : list param) (vs : list val) : option env :=
  match ps, vs with
  | [], [] => Some []
  | (_, x) :: ps', v :: vs' =>
      match bind_params ps' vs' with
      | Some rho => Some ((x, v) :: rho)
      | None => None
      end
  | _, _ => None
  end.

(** How a piece of C code can end: normally, by a thrown library error
    that unwinds to the nearest guarded region, or with no meaning at all
    (an unbound identifier, a read of a local that was never assigned). *)
Inductive outcome (A : Type) : Type :=
  | Done (a : A)
  | Raised (e : fz_error)
  | Wrong.

Arguments Done {A} a.
Arguments Raised {A} e.
Arguments Wrong {A}.

Section Execution.

Context {L : Library}.

(** What is observable of a run: the library's state and the log of the
    library calls made so far. *)
Record machine : Type := { lib_state : world; calls : list call_event }.

(** The activation record of a generated function: its one local, [ret],
    which holds no value until it is assigned. *)
Record frame : Type := { ret : option val; mach : machine }.

Definition exec (A : Type) : Type := frame -> outcome A * frame.

Definition pure {A} (a : A) : exec A := fun fr => (Done a, fr).

Definition bind {A B} (c : exec A) (k : A -> exec B) : exec B :=
  fun fr =>
    match c fr with
    | (Done a, fr') => k a fr'
    | (Raised e, fr') => (Raised e, fr')
    | (Wrong, fr') => (Wrong, fr')
    end.

Definition wrong {A} : exec A := fun fr => (Wrong, fr).

(** [ret_type ret;] *)
Definition declare_ret : exec unit :=
  fun fr => (Done tt, {| ret := None; mach := mach fr |}).

(** [ret = v;] *)
Definition assign_ret (v : val) : exec unit :=
  fun fr => (Done tt, {| ret := Some v; mach := mach fr |}).

(** [return ret;] *)
Definition return_ret : exec val :=
  fun fr =>
    match ret fr with
    | Some v => (Done v, fr)
    | None => (Wrong, fr)
    end.

(** Entering the library: the call is logged with the values it receives,
    then the library answers. *)
Definition call_library (f : string) (vs : list val) : exec val :=
  fun fr =>
    let m := mach fr in
    let (r, w') := fz_call f vs (lib_state m) in
    let fr' := {| ret := ret fr;
                  mach := {| lib_state := w';
                             calls := calls m ++ [(f, vs)] |} |} in
    match r with
    | Returns v => (Done v, fr')
    | Throws e => (Raised e, fr')
    end.

(** The value of a call expression: each argument identifier is read from
    the environment, left to right, and the callee is entered. *)
Definition eval_call (rho : env) (c : call_expr) : exec val :=
  match lookup_all (call_args c) rho with
  | Some vs => call_library (callee c) vs
  | None => wrong
  end.

(** Modelled from the spec: the macros [fz_try] and [fz_catch] come from
    MuPDF's headers, which are not in the repository.  The spec's guarded
    execution region is "a call scope in which a failure signal raised by
    the underlying library is caught locally rather than propagating to
    the caller": the guarded block runs; if it ends normally the handler
    is skipped, and if a library error unwinds out of it the handler runs
    in the state the error left behind and the error goes no further. *)
Definition fz_try_catch (body handler : exec unit) : exec unit :=
  fun fr =>
    match body fr with
    | (Done tt, fr') => (Done tt, fr')
    | (Raised _, fr') => handler fr'
    | (Wrong, fr') => (Wrong, fr')
    end.

(** A generated C function: its signature, and its body as a computation
    in an environment that binds the parameters. *)
Record c_function : Type := {
  fn_name : string;
  fn_ret_type : ctype;
  fn_params : list param;
  fn_body : env -> exec val
}.

(** Calling a generated function on a machine: the arguments are bound to
    the parameters, the body runs in a fresh frame, and the frame is
    dropped on return. *)
Definition call_function (f : c_function) (vs : list val) (m : machine)
  : outcome val * machine :=
  match bind_params (fn_params f) vs with
  | Some rho =>
      let (o, fr) := fn_body f rho {| ret := None; mach := m |} in
      (o, mach fr)
  | None => (Wrong, m)
  end.

End Execution.

Declare Scope exec_scope.
Delimit Scope exec_scope with exec.
Notation "x <- c ;; k" := (bind c (fun x => k))
  (at level 61, c at next level, right associativity) : exec_scope.
Notation "c ;; k" := (bind c (fun _ => k))
  (at level 61, right associativity) : exec_scope.

End Base.

(* ===================================================================== *)
(** ** mupdf_wrapper/mupdf_wrapper.c                                       *)
(* ===================================================================== *)

Module MupdfWrapper.
Import Base.

Section Macro.
Context {L : Library}.
Local Open Scope exec_scope.

(** [#define WRAP(name, ret_type, failure_val, call, ...)]: the function
    [ret_type mp_##name(fz_context *ctx, ##__VA_ARGS__)] with the body
    [ret_type ret; fz_try (ctx) { ret = call; }
     fz_catch (ctx) { ret = failure_val; } return ret;]. *)
Definition WRAP (name : string) (ret_type : ctype) (failure_val : val)
    (call : call_expr) (va_args : list param) : c_function :=
  {| fn_name := String.append "mp_" name;
     fn_ret_type := ret_type;
     fn_params := (Tptr fz_context, "ctx"%string) :: va_args;
     fn_body := fun rho =>
       declare_ret ;;
       fz_try_catch
         (v <- eval_call rho call ;; assign_ret v)
         (assign_ret failure_val) ;;
       return_ret |}.

End Macro.

Local Open Scope string_scope.

(** The nine [WRAP(...)] lines, in file order (lines 11 to 19). *)
Definition open_document : invocation :=
  {| name := "open_document";
     ret_type := Tptr fz_document;
     failure_val := NULL;
     call := {| callee := "fz_open_document";
                call_args := ["ctx"; "path"] |};
     va_args := [(Tptr char, "path")] |}.

Definition open_document_with_stream : invocation :=
  {| name := "open_document_with_stream";
     ret_type := Tptr fz_document;
     failure_val := NULL;
     call := {| callee := "fz_open_document_with_stream";
                call_args := ["ctx"; "kind"; "stream"] |};
     va_args := [(Tptr const_char, "kind"); (Tptr fz_stream, "stream")] |}.

Definition load_page : invocation :=
  {| name := "load_page";
     ret_type := Tptr fz_page;
     failure_val := NULL;
     call := {| callee := "fz_load_page";
                call_args := ["ctx"; "doc"; "pageno"] |};
     va_args := [(Tptr fz_document, "doc"); (Tint, "pageno")] |}.

Definition load_outline : invocation :=
  {| name := "load_outline";
     ret_type := Tptr fz_outline;
     failure_val := NULL;
     call := {| callee := "fz_load_outline";
                call_args := ["ctx"; "doc"] |};
     va_args := [(Tptr fz_document, "doc")] |}.

Definition load_links : invocation :=
  {| name := "load_links";
     ret_type := Tptr fz_link;
     failure_val := NULL;
     call := {| callee := "fz_load_links";
                call_args := ["ctx"; "page"] |};
     va_args := [(Tptr fz_page, "page")] |}.

Definition count_pages : invocation :=
  {| name := "count_pages";
     ret_type := Tint;
     failure_val := Vint (-1);
     call := {| callee := "fz_count_pages";
                call_args := ["ctx"; "doc"] |};
     va_args := [(Tptr fz_document, "doc")] |}.

Definition page_number_from_location : invocation :=
  {| name := "page_number_from_location";
     ret_type := Tint;
     failure_val := Vint (-1);
     call := {| callee := "fz_page_number_from_location";
                call_args := ["ctx"; "doc"; "loc"] |};
     va_args := [(Tptr fz_document, "doc"); (Tfz_location, "loc")] |}.

Definition new_pixmap_from_page : invocation :=
  {| name := "new_pixmap_from_page";
     ret_type := Tptr fz_pixmap;
     failure_val := NULL;
     call := {| callee := "fz_new_pixmap_from_page";
                call_args := ["ctx"; "page"; "mat"; "cs"; "alpha"] |};
     va_args := [(Tptr fz_page, "page"); (Tfz_matrix, "mat");
                 (Tptr fz_colorspace, "cs"); (Tint, "alpha")] |}.

Definition new_stext_page_from_page : invocation :=
  {| name := "new_stext_page_from_page";
     ret_type := Tptr fz_stext_page;
     failure_val := NULL;
     call := {| callee := "fz_new_stext_page_from_page";
                call_args := ["ctx"; "page"; "options"] |};
     va_args := [(Tptr fz_page, "page");
                 (Tptr fz_stext_options, "options")] |}.

Definition invocations : list invocation :=
  [ open_document; open_document_with_stream; load_page; load_outline;
    load_links; count_pages; page_number_from_location;
    new_pixmap_from_page; new_stext_page_from_page ].

(** Macro expansion of one line, and of the file. *)
Definition expand {L : Library} (i : invocation) : c_function :=
  WRAP (name i) (ret_type i) (failure_val i) (call i) (va_args i).

Definition functions {L : Library} : list c_function :=
  map expand invocations.

End MupdfWrapper.

(* ===================================================================== *)
(** ** src/wrapper/mupdf.c                                                 *)
(* ===================================================================== *)

Module Mupdf.
Import Base.

Section Macro.
Context {L : Library}.
Local Open Scope exec_scope.

(** The file has its own copy of the macro. *)
Definition WRAP (name : string) (ret_type : ctype) (failure_val : val)
    (call : call_expr) (va_args : list param) : c_function :=
  {| fn_name := String.append "mp_" name;
     fn_ret_type := ret_type;
     fn_params := (Tptr fz_context, "ctx"%string) :: va_args;
     fn_body := fun rho =>
       declare_ret ;;
       fz_try_catch
         (v <- eval_call rho call ;; assign_ret v)
         (assign_ret failure_val) ;;
       return_ret |}.

End Macro.

Local Open Scope string_scope.

(** The four [WRAP(...)] lines, in file order (lines 11 to 14). *)
Definition open_document : invocation :=
  {| name := "open_document";
     ret_type := Tptr fz_document;
     failure_val := NULL;
     call := {| callee := "fz_open_document";
                call_args := ["ctx"; "path"] |};
     va_args := [(Tptr char, "path")] |}.

Definition count_pages : invocation :=
  {| name := "count_pages";
     ret_type := Tint;
     failure_val := Vint (-1);
     call := {| callee := "fz_count_pages";
                call_args := ["ctx"; "doc"] |};
     va_args := [(Tptr fz_document, "doc")] |}.

Definition load_outline : invocation :=
  {| name := "load_outline";
     ret_type := Tptr fz_outline;
     failure_val := NULL;
     call := {| callee := "fz_load_outline";
                call_args := ["ctx"; "doc"] |};
     va_args := [(Tptr fz_document, "doc")] |}.

Definition load_page : invocation :=
  {| name := "load_page";
     ret_type := Tptr fz_page;
     failure_val := NULL;
     call := {| callee := "fz_load_page";
                call_args := ["ctx"; "doc"; "pageno"] |};
     va_args := [(Tptr fz_document, "doc"); (Tint, "pageno")] |}.

Definition invocations : list invocation :=
  [ open_document; count_pages; load_outline; load_page ].

Definition expand {L : Library} (i : invocation) : c_function :=
  WRAP (name i) (ret_type i) (failure_val i) (call i) (va_args i).

Definition functions {L : Library} : list c_function :=
  map expand invocations.

End Mupdf.

(* ===================================================================== *)
(** ** The repository as a whole                                           *)
(* ===================================================================== *)

Module Repo.
Import Base.

Inductive source_file : Type := mupdf_wrapper_c | mupdf_c.

Definition invocations_of (f : source_file) : list invocation :=
  match f with
  | mupdf_wrapper_c => MupdfWrapper.invocations
  | mupdf_c => Mupdf.invocations
  end.

Definition expand_in {L : Library} (f : source_file)
  : invocation -> c_function :=
  match f with
  | mupdf_wrapper_c => MupdfWrapper.expand
  | mupdf_c => Mupdf.expand
  end.

(** [mp f i ctx args m]: the C call [mp_<name i>(ctx, args...)] of the
    function that file [f] generates from line [i], made on machine [m]. *)
Definition mp {L : Library} (f : source_file) (i : invocation)
    (ctx : val) (args : list val) (m : machine) : outcome val * machine :=
  call_function (expand_in f i) (ctx :: args) m.

(** The value a caller of the adapted operation receives. *)
Definition returned {L : Library} (r : outcome val * machine) : outcome val :=
  fst r.

(** What the caller gets for a given answer of the library. *)
Definition value_of (i : invocation) (r : fz_result) : val :=
  match r with
  | Returns v => v
  | Throws _ => failure_val i
  end.

(** The machine after a library call [f(vs)] that left the library in
    state [w']. *)
Definition after_call {L : Library} (m : machine) (f : string)
    (vs : list val) (w' : world) : machine :=
  {| lib_state := w'; calls := calls m ++ [(f, vs)] |}.

(** *** Scoping of the macro arguments

    The [call] argument of a [WRAP] line mentions identifiers; they mean
    something only if they are the parameters the same line declares. *)

Fixpoint distinct (xs : list string) : bool :=
  match xs with
  | [] => true
  | x :: xs' => negb (existsb (String.eqb x) xs') && distinct xs'
  end.

Definition same_names (xs ys : list string) : bool :=
  if list_eq_dec string_dec xs ys then true else false.

Definition param_names (i : invocation) : list string :=
  "ctx"%string :: map snd (va_args i).

(** The call passes the function's own parameters, all of them, in the
    order they are declared, and no two parameters share a name. *)
Definition forwards_params (i : invocation) : bool :=
  same_names (call_args (call i)) (param_names i)
  && distinct (param_names i).

(** *** The spec's table of operations *)

Record row : Type := {
  row_call : string;
  row_kind : result_kind;
  row_sentinel : val
}.

Local Open Scope string_scope.

(** The table of section 4.1, row by row; each operation is named by the
    MuPDF call that performs it. *)
Definition spec_table : list row :=
  [ (* open a document from a path *)
    {| row_call := "fz_open_document";
       row_kind := Handle; row_sentinel := NULL |};
    (* open a document from a stream with a declared format kind *)
    {| row_call := "fz_open_document_with_stream";
       row_kind := Handle; row_sentinel := NULL |};
    (* load a page by zero-based index from a document *)
    {| row_call := "fz_load_page";
       row_kind := Handle; row_sentinel := NULL |};
    (* load the outline of a document *)
    {| row_call := "fz_load_outline";
       row_kind := Handle; row_sentinel := NULL |};
    (* load the link annotations of a page *)
    {| row_call := "fz_load_links";
       row_kind := Handle; row_sentinel := NULL |};
    (* count the pages in a document *)
    {| row_call := "fz_count_pages";
       row_kind := Integer; row_sentinel := Vint (-1) |};
    (* resolve a page number from a structured location *)
    {| row_call := "fz_page_number_from_location";
       row_kind := Integer; row_sentinel := Vint (-1) |};
    (* render a page to a pixel buffer *)
    {| row_call := "fz_new_pixmap_from_page";
       row_kind := Handle; row_sentinel := NULL |};
    (* extract structured text from a page *)
    {| row_call := "fz_new_stext_page_from_page";
       row_kind := Handle; row_sentinel := NULL |} ].

(** What one [WRAP] line contributes to such a table. *)
Definition row_of (i : invocation) : option row :=
  match kind_of (ret_type i) with
  | Some k => Some {| row_call := callee (call i);
                      row_kind := k;
                      row_sentinel := failure_val i |}
  | None => None
  end.

(** The sentinel the spec declares for a result kind. *)
Definition sentinel_of (k : result_kind) : val :=
  match k with
  | Handle => NULL
  | Integer => Vint (-1)
  end.

End Repo.

(* ===================================================================== *)
(** ** A small library to run the wrappers against                        *)
(* ===================================================================== *)

Module Stub.
Import Base.
Local Open Scope string_scope.

(** The files on disk (address of the path string, number of pages) and
    the documents that are open (handle, number of pages). *)
Record stub_world : Type := {
  files : list (Z * Z);
  documents : list (Z * Z)
}.

Fixpoint assoc (k : Z) (l : list (Z * Z)) : option Z :=
  match l with
  | [] => None
  | (k', v) :: l' => if Z.eqb k k' then Some v else assoc k l'
  end.

Definition generic (msg : string) : fz_error :=
  {| errcode := 2; message := msg |}.

Definition argument (msg : string) : fz_error :=
  {| errcode := 4; message := msg |}.

(** Three of MuPDF's calls, in miniature.  As in MuPDF, counting the
    pages of a null document is not an error: the count is 0. *)
Definition stub_call (f : string) (vs : list val) (w : stub_world)
  : fz_result * stub_world :=
  if String.eqb f "fz_open_document" then
    match vs with
    | [_; Vptr path] =>
        match assoc path (files w) with
        | Some n =>
            let h := 1 + Z.of_nat (List.length (documents w)) in
            (Returns (Vptr h),
             {| files := files w; documents := (h, n) :: documents w |})
        | None => (Throws (generic "cannot open document"), w)
        end
    | _ => (Throws (argument "bad arguments"), w)
    end
  else if String.eqb f "fz_count_pages" then
    match vs with
    | [_; Vptr doc] =>
        if Z.eqb doc 0 then (Returns (Vint 0), w)
        else match assoc doc (documents w) with
             | Some n => (Returns (Vint n), w)
             | None => (Throws (generic "not a document"), w)
             end
    | _ => (Throws (argument "bad arguments"), w)
    end
  else if String.eqb f "fz_load_page" then
    match vs with
    | [_; Vptr doc; Vint k] =>
        match assoc doc (documents w) with
        | Some n =>
            if Z.leb 0 k && Z.ltb k n
            then (Returns (Vptr (1000 * doc + k)), w)
            else (Throws (argument "invalid page number"), w)
        | None => (Throws (generic "not a document"), w)
        end
    | _ => (Throws (argument "bad arguments"), w)
    end
  else (Throws (generic "not implemented"), w).

Definition lib : Library := {| world := stub_world; fz_call := stub_call |}.

(** One file of three pages at path address 100; nothing open yet. *)
Definition fresh : stub_world := {| files := [(100, 3)]; documents := [] |}.

(** The same, after the file has been opened as document 1. *)
Definition opened : stub_world :=
  {| files := [(100, 3)]; documents := [(1, 3)] |}.

Definition on (w : stub_world) : @machine lib :=
  @Build_machine lib w [].

(** Some context handle. *)
Definition ctx0 : val := Vptr 1.

(** The validly-opened documents of a state and their page counts: a
    non-null handle that is in the table of open documents with a count
    that is not negative. *)
Definition page_count (w : stub_world) (d : val) : option Z :=
  match d with
  | Vptr a =>
      if Z.eqb a 0 then None
      else match assoc a (documents w) with
           | Some n => if Z.leb 0 n then Some n else None
           | None => None
           end
  | _ => None
  end.

End Stub.

(* ===================================================================== *)
(** ** Callers: one adapted call after another                             *)
(* ===================================================================== *)

Module Caller.
Import Base Repo.

(** One statement [mp_<name>(ctx, args...);] of a caller. *)
Record statement : Type := {
  line : invocation;
  context : val;
  actuals : list val
}.

(** The statements of a caller, run in program order: each call starts on
    the machine the previous one left, and its outcome is kept. *)
Fixpoint run_calls {L : Library} (f : source_file) (cs : list statement)
    (m : machine) : list (outcome val) * machine :=
  match cs with
  | [] => ([], m)
  | c :: cs' =>
      let (o, m1) := mp f (line c) (context c) (actuals c) m in
      let (os, m2) := run_calls f cs' m1 in
      (o :: os, m2)
  end.

(** The library call that a statement stands for. *)
Definition event_of (c : statement) : call_event :=
  (callee (call (line c)), context c :: actuals c).

(** The statement names a function of file [f] and gives it as many
    arguments as it has parameters after [ctx]. *)
Definition well_formed (f : source_file) (c : statement) : Prop :=
  In (line c) (invocations_of f)
  /\ List.length (actuals c) = List.length (va_args (line c)).

(** The library's state after it has answered the given calls, one after
    the other, whether by returning or by throwing. *)
Fixpoint library_after {L : Library} (es : list call_event) (w : world)
  : world :=
  match es with
  | [] => w
  | (g, vs) :: es' => library_after es' (snd (fz_call g vs w))
  end.

End Caller.

(* ===================================================================== *)
(** ** Properties of the generated functions                              *)
(* ===================================================================== *)

Import Base Repo.

(** *** Environments *)

Lemma lookup_all_skip (x : string) (v : val) (xs : list string) (rho : env) :
  existsb (String.eqb x) xs = false ->
  lookup_all xs ((x, v) :: rho) = lookup_all xs rho.
Proof.
  induction xs as [|y ys IH]; simpl; intros H; [reflexivity|].
  apply orb_false_elim in H as [Hxy Hys].
  rewrite String.eqb_sym, Hxy, (IH Hys). reflexivity.
Qed.

Lemma bind_then_lookup (ps : list param) :
  forall vs : list val,
    List.length vs = List.length ps ->
    distinct (map snd ps) = true ->
    exists rho, bind_params ps vs = Some rho
                /\ lookup_all (map snd ps) rho = Some vs.
Proof.
  induction ps as [|[t x] ps IH]; intros [|v vs] Hlen Hd;
    try discriminate Hlen.
  - exists []. split; reflexivity.
  - simpl in Hd. apply andb_prop in Hd as [Hx Hd].
    apply negb_true_iff in Hx.
    injection Hlen as Hlen.
    destruct (IH vs Hlen Hd) as (rho & Hb & Hl).
    exists ((x, v) :: rho). simpl. rewrite Hb. split; [reflexivity|].
    rewrite String.eqb_refl, (lookup_all_skip _ _ _ _ Hx), Hl.
    reflexivity.
Qed.

Lemma same_names_eq (xs ys : list string) :
  same_names xs ys = true -> xs = ys.
Proof.
  unfold same_names. destruct (list_eq_dec string_dec xs ys); congruence.
Qed.

(** Every line of either file passes on exactly the parameters it declares. *)
Lemma lines_forward_params (f : source_file) (i : invocation) :
  In i (invocations_of f) -> forwards_params i = true.
Proof.
  destruct f; simpl; intros H;
    repeat (destruct H as [<- | H]; [reflexivity|]); contradiction.
Qed.

Section Adapter.

Context {L : Library}.

(** The body of a generated function, run in an environment where the
    identifiers of the call expression are bound to [vs]: whatever the
    frame held on entry, the body ends normally, [ret] holds the value
    it returns, and the library was entered once. *)
Lemma body_run (f : source_file) (i : invocation) (rho : env)
    (vs : list val) (fr : frame) :
  lookup_all (call_args (call i)) rho = Some vs ->
  fn_body (expand_in f i) rho fr =
    let r := fz_call (callee (call i)) vs (lib_state (mach fr)) in
    (Done (value_of i (fst r)),
     {| ret := Some (value_of i (fst r));
        mach := after_call (mach fr) (callee (call i)) vs (snd r) |}).
Proof.
  intros Hl.
  destruct f; unfold expand_in, MupdfWrapper.expand, Mupdf.expand,
    MupdfWrapper.WRAP, Mupdf.WRAP; simpl fn_body;
    unfold bind, declare_ret, fz_try_catch, eval_call, call_library,
      assign_ret, return_ret; rewrite Hl; simpl;
    destruct (fz_call (callee (call i)) vs (lib_state (mach fr)))
      as [[v|e] w']; reflexivity.
Qed.

(** Binding the arguments of a well-formed call succeeds, and the call
    expression then evaluates to those same arguments, in order. *)
Lemma args_reach_call (f : source_file) (i : invocation) (ctx : val)
    (args : list val) :
  forwards_params i = true ->
  List.length args = List.length (va_args i) ->
  exists rho,
    bind_params (fn_params (expand_in f i)) (ctx :: args) = Some rho
    /\ lookup_all (call_args (call i)) rho = Some (ctx :: args).
Proof.
  intros Hf Hlen.
  apply andb_prop in Hf as [Hsame Hd]. apply same_names_eq in Hsame.
  destruct (bind_then_lookup ((Tptr fz_context, "ctx"%string) :: va_args i)
              (ctx :: args)) as (rho & Hb & Hl).
  { simpl. now rewrite Hlen. }
  { exact Hd. }
  exists rho. split.
  - destruct f; exact Hb.
  - rewrite Hsame. exact Hl.
Qed.

(** One call of a generated function, start to end. *)
Lemma mp_run (f : source_file) (i : invocation) (ctx : val)
    (args : list val) (m : machine) :
  forwards_params i = true ->
  List.length args = List.length (va_args i) ->
  mp f i ctx args m =
    let r := fz_call (callee (call i)) (ctx :: args) (lib_state m) in
    (Done (value_of i (fst r)),
     after_call m (callee (call i)) (ctx :: args) (snd r)).
Proof.
  intros Hf Hlen.
  destruct (args_reach_call f i ctx args Hf Hlen) as (rho & Hb & Hl).
  unfold mp, call_function. rewrite Hb.
  rewrite (body_run f i rho (ctx :: args) _ Hl). reflexivity.
Qed.

End Adapter.

(** *** Normal completion and failure *)

(** C1 (pass-through).  For every operation of either file: when the
    underlying MuPDF call, made on the arguments the caller gave,
    completes normally with a value [v], the adapter returns exactly
    [v]. *)
Theorem pass_through (L : Library) (f : source_file) (i : invocation)
    (ctx : val) (args : list val) (m : machine) (v : val) (w' : world) :
  In i (invocations_of f) ->
  List.length args = List.length (va_args i) ->
  fz_call (callee (call i)) (ctx :: args) (lib_state m) = (Returns v, w') ->
  returned (mp f i ctx args m) = Done v.
Proof.
  intros Hin Hlen Hcall.
  rewrite (mp_run f i ctx args m (lines_forward_params f i Hin) Hlen).
  unfold returned. simpl. rewrite Hcall. reflexivity.
Qed.

(** [mp_count_pages] on the open three-page document returns 3. *)
Lemma pass_through_witness :
  In MupdfWrapper.count_pages (invocations_of mupdf_wrapper_c)
  /\ returned (mp (L := Stub.lib) mupdf_wrapper_c MupdfWrapper.count_pages
                 Stub.ctx0 [Vptr 1] (Stub.on Stub.opened))
     = Done (Vint 3).
Proof.
  split.
  - simpl. tauto.
  - apply (pass_through Stub.lib mupdf_wrapper_c MupdfWrapper.count_pages
             Stub.ctx0 [Vptr 1] (Stub.on Stub.opened) (Vint 3) Stub.opened).
    + simpl. tauto.
    + reflexivity.
    + reflexivity.
Defined.

(** Each line's sentinel is the one its return type calls for: [NULL]
    for a pointer, [-1] for [int]. *)
Lemma declared_sentinel (f : source_file) (i : invocation) :
  In i (invocations_of f) ->
  exists k, kind_of (ret_type i) = Some k /\ failure_val i = sentinel_of k.
Proof.
  destruct f; simpl; intros H;
    repeat (destruct H as [<- | H];
            [eexists; split; reflexivity|]); contradiction.
Qed.

(** C2 (trap and translate).  For every operation of either file: when
    the underlying MuPDF call throws, the adapter returns normally, with
    the sentinel of its [WRAP] line; that sentinel is [NULL] when the
    operation returns a handle and [-1] when it returns an integer; and
    in no case does the adapter end by passing the error on. *)
Theorem failure_gives_sentinel (L : Library) (f : source_file)
    (i : invocation) (ctx : val) (args : list val) (m : machine)
    (e : fz_error) (w' : world) :
  In i (invocations_of f) ->
  List.length args = List.length (va_args i) ->
  fz_call (callee (call i)) (ctx :: args) (lib_state m) = (Throws e, w') ->
  returned (mp f i ctx args m) = Done (failure_val i)
  /\ (kind_of (ret_type i) = Some Handle -> failure_val i = NULL)
  /\ (kind_of (ret_type i) = Some Integer -> failure_val i = Vint (-1))
  /\ (forall e', returned (mp f i ctx args m) <> Raised e').
Proof.
  intros Hin Hlen Hcall.
  rewrite (mp_run f i ctx args m (lines_forward_params f i Hin) Hlen).
  unfold returned. simpl. rewrite Hcall. simpl.
  destruct (declared_sentinel f i Hin) as (k & Hk & Hs).
  rewrite Hk, Hs.
  repeat split; try discriminate.
  - intros [= ->]. reflexivity.
  - intros [= ->]. reflexivity.
Qed.

(** Opening a path at which there is no file: MuPDF throws,
    [mp_open_document] returns [NULL]. *)
Lemma failure_gives_sentinel_witness :
  @fz_call Stub.lib "fz_open_document" [Stub.ctx0; Vptr 101] Stub.fresh
    = (Throws (Stub.generic "cannot open document"), Stub.fresh)
  /\ returned (mp (L := Stub.lib) mupdf_c Mupdf.open_document
                 Stub.ctx0 [Vptr 101] (Stub.on Stub.fresh))
     = Done NULL.
Proof.
  split.
  - reflexivity.
  - apply (failure_gives_sentinel Stub.lib mupdf_c Mupdf.open_document
             Stub.ctx0 [Vptr 101] (Stub.on Stub.fresh)
             (Stub.generic "cannot open document") Stub.fresh).
    + simpl. tauto.
    + reflexivity.
    + reflexivity.
Defined.

(** C4 (the cause is dropped).  Take one operation and one argument list,
    and two occasions (possibly under two different libraries) on which
    the underlying call throws, with errors [e1] and [e2] that may differ
    in code and message.  The adapter returns the same value on both
    occasions, and it is the line's sentinel: nothing of [e1] or [e2] is
    in it. *)
Theorem failure_cause_discarded (L1 L2 : Library) (f : source_file)
    (i : invocation) (ctx : val) (args : list val)
    (m1 : @machine L1) (m2 : @machine L2)
    (e1 e2 : fz_error) (w1 : @world L1) (w2 : @world L2) :
  In i (invocations_of f) ->
  List.length args = List.length (va_args i) ->
  fz_call (callee (call i)) (ctx :: args) (lib_state m1) = (Throws e1, w1) ->
  fz_call (callee (call i)) (ctx :: args) (lib_state m2) = (Throws e2, w2) ->
  returned (mp f i ctx args m1) = returned (mp f i ctx args m2)
  /\ returned (mp f i ctx args m1) = Done (failure_val i).
Proof.
  intros Hin Hlen H1 H2.
  rewrite (mp_run f i ctx args m1 (lines_forward_params f i Hin) Hlen).
  rewrite (mp_run f i ctx args m2 (lines_forward_params f i Hin) Hlen).
  unfold returned. simpl. rewrite H1, H2. split; reflexivity.
Qed.

(** Loading page 5: of something that is not a document (a generic
    error), and of a three-page document (an argument error).  Both give
    [NULL]. *)
Lemma failure_cause_discarded_witness :
  Stub.generic "not a document" <> Stub.argument "invalid page number"
  /\ returned (mp (L := Stub.lib) mupdf_wrapper_c MupdfWrapper.load_page
                 Stub.ctx0 [Vptr 1; Vint 5] (Stub.on Stub.fresh))
     = returned (mp (L := Stub.lib) mupdf_wrapper_c MupdfWrapper.load_page
                   Stub.ctx0 [Vptr 1; Vint 5] (Stub.on Stub.opened)).
Proof.
  split.
  - discriminate.
  - apply (failure_cause_discarded Stub.lib Stub.lib mupdf_wrapper_c
             MupdfWrapper.load_page Stub.ctx0 [Vptr 1; Vint 5]
             (Stub.on Stub.fresh) (Stub.on Stub.opened)
             (Stub.generic "not a document")
             (Stub.argument "invalid page number")
             Stub.fresh Stub.opened).
    + simpl. tauto.
    + reflexivity.
    + reflexivity.
    + reflexivity.
Defined.

(** *** Effects *)

(** C8 (one call, nothing added).  For every operation of either file and
    for any argument values whatever: the adapter enters the library
    exactly once, in the underlying function of its [WRAP] line, with the
    context handle followed by the caller's arguments, unchanged and in
    order; and the library state after the adapter returns is the state
    that this one call left.  The log and the library state are all there
    is to a machine, so the adapter keeps nothing of its own. *)
Theorem one_call_nothing_added (L : Library) (f : source_file)
    (i : invocation) (ctx : val) (args : list val) (m : machine) :
  In i (invocations_of f) ->
  List.length args = List.length (va_args i) ->
  calls (snd (mp f i ctx args m))
    = calls m ++ [(callee (call i), ctx :: args)]
  /\ lib_state (snd (mp f i ctx args m))
     = snd (fz_call (callee (call i)) (ctx :: args) (lib_state m)).
Proof.
  intros Hin Hlen.
  rewrite (mp_run f i ctx args m (lines_forward_params f i Hin) Hlen).
  split; reflexivity.
Qed.

(** Opening the file at path 100: one call of [fz_open_document], and the
    document table grows by the one document MuPDF opened. *)
Lemma one_call_nothing_added_witness :
  calls (snd (mp (L := Stub.lib) mupdf_wrapper_c MupdfWrapper.open_document
                Stub.ctx0 [Vptr 100] (Stub.on Stub.fresh)))
    = [("fz_open_document"%string, [Stub.ctx0; Vptr 100])]
  /\ lib_state (snd (mp (L := Stub.lib) mupdf_wrapper_c
                       MupdfWrapper.open_document
                       Stub.ctx0 [Vptr 100] (Stub.on Stub.fresh)))
     = Stub.opened.
Proof.
  apply (one_call_nothing_added Stub.lib mupdf_wrapper_c
           MupdfWrapper.open_document Stub.ctx0 [Vptr 100]
           (Stub.on Stub.fresh)).
  - simpl. tauto.
  - reflexivity.
Defined.

(** C9 (repeating a call).  Call an operation, then call it again with the
    same arguments, nothing happening in between: the second call runs on
    the machine the first one left.  If the underlying MuPDF call answers
    those arguments the same way on both occasions, the adapter returns
    the same value both times. *)
Theorem repeated_call_same_result (L : Library) (f : source_file)
    (i : invocation) (ctx : val) (args : list val) (m : machine) :
  In i (invocations_of f) ->
  List.length args = List.length (va_args i) ->
  fst (fz_call (callee (call i)) (ctx :: args) (lib_state m))
    = fst (fz_call (callee (call i)) (ctx :: args)
             (snd (fz_call (callee (call i)) (ctx :: args) (lib_state m)))) ->
  returned (mp f i ctx args (snd (mp f i ctx args m)))
    = returned (mp f i ctx args m).
Proof.
  intros Hin Hlen Hdet.
  pose proof (lines_forward_params f i Hin) as Hf.
  rewrite (mp_run f i ctx args (snd (mp f i ctx args m)) Hf Hlen).
  rewrite (mp_run f i ctx args m Hf Hlen).
  unfold returned. simpl. rewrite <- Hdet. reflexivity.
Qed.

(** Counting the pages of document 1 twice gives 3 twice. *)
Lemma repeated_call_same_result_witness :
  returned (mp (L := Stub.lib) mupdf_c Mupdf.count_pages Stub.ctx0 [Vptr 1]
              (snd (mp (L := Stub.lib) mupdf_c Mupdf.count_pages
                      Stub.ctx0 [Vptr 1] (Stub.on Stub.opened))))
    = returned (mp (L := Stub.lib) mupdf_c Mupdf.count_pages
                  Stub.ctx0 [Vptr 1] (Stub.on Stub.opened)).
Proof.
  apply (repeated_call_same_result Stub.lib mupdf_c Mupdf.count_pages
           Stub.ctx0 [Vptr 1] (Stub.on Stub.opened)).
  - simpl. tauto.
  - reflexivity.
  - reflexivity.
Defined.

(** *** The local variable *)

Lemma sentinel_typed (f : source_file) (i : invocation) :
  In i (invocations_of f) -> has_type (failure_val i) (ret_type i) = true.
Proof.
  destruct f; simpl; intros H;
    repeat (destruct H as [<- | H]; [reflexivity|]); contradiction.
Qed.

Lemma fn_ret_type_expand {L : Library} (f : source_file) (i : invocation) :
  fn_ret_type (expand_in f i) = ret_type i.
Proof. destruct f; reflexivity. Qed.

(** C10 (no read of an unassigned local).  For every operation of either
    file, called with as many arguments as it has parameters: whatever
    [ret] held when the body was entered, the body ends normally and
    [ret] then holds the value that is returned, so the function never
    returns an unassigned local; the call as a whole returns that value;
    and the value has the declared return type, provided MuPDF's own
    result has the type its prototype declares. *)
Theorem ret_assigned_on_every_path (L : Library) (f : source_file)
    (i : invocation) (ctx : val) (args : list val) (m : machine) :
  In i (invocations_of f) ->
  List.length args = List.length (va_args i) ->
  (forall v w',
      fz_call (callee (call i)) (ctx :: args) (lib_state m) = (Returns v, w') ->
      has_type v (ret_type i) = true) ->
  exists (rho : env) (v : val),
    bind_params (fn_params (expand_in f i)) (ctx :: args) = Some rho
    /\ (forall stale : option val,
          exists fr',
            fn_body (expand_in f i) rho {| ret := stale; mach := m |}
              = (Done v, fr')
            /\ ret fr' = Some v)
    /\ returned (mp f i ctx args m) = Done v
    /\ has_type v (fn_ret_type (expand_in f i)) = true.
Proof.
  intros Hin Hlen Hty.
  pose proof (lines_forward_params f i Hin) as Hf.
  destruct (args_reach_call f i ctx args Hf Hlen) as (rho & Hb & Hl).
  exists rho,
    (value_of i (fst (fz_call (callee (call i)) (ctx :: args) (lib_state m)))).
  split; [exact Hb|]. split; [|split].
  - intros stale.
    rewrite (body_run f i rho (ctx :: args) _ Hl). simpl.
    eexists. split; reflexivity.
  - rewrite (mp_run f i ctx args m Hf Hlen). reflexivity.
  - rewrite fn_ret_type_expand.
    destruct (fz_call (callee (call i)) (ctx :: args) (lib_state m))
      as [[v|e] w'] eqn:E; simpl.
    + apply (Hty v w'). reflexivity.
    + apply (sentinel_typed f i Hin).
Qed.

(** [mp_load_page] of page 2 of document 1 returns a pointer. *)
Lemma ret_assigned_on_every_path_witness :
  exists (rho : env) (v : val),
    bind_params (fn_params (expand_in (L := Stub.lib) mupdf_c Mupdf.load_page))
      [Stub.ctx0; Vptr 1; Vint 2] = Some rho
    /\ (forall stale : option val,
          exists fr',
            fn_body (expand_in (L := Stub.lib) mupdf_c Mupdf.load_page) rho
              {| ret := stale; mach := Stub.on Stub.opened |}
              = (Done v, fr')
            /\ ret fr' = Some v)
    /\ returned (mp (L := Stub.lib) mupdf_c Mupdf.load_page
                   Stub.ctx0 [Vptr 1; Vint 2] (Stub.on Stub.opened))
       = Done v
    /\ has_type v (fn_ret_type
                     (expand_in (L := Stub.lib) mupdf_c Mupdf.load_page))
       = true.
Proof.
  apply (ret_assigned_on_every_path Stub.lib mupdf_c Mupdf.load_page
           Stub.ctx0 [Vptr 1; Vint 2] (Stub.on Stub.opened)).
  - simpl. tauto.
  - reflexivity.
  - intros v w' H. vm_compute in H. injection H as <- _. reflexivity.
Defined.

(** *** What the files define *)

(** C3 (the list of operations).  The top-level file is one macro and nine
    invocations of it, nine lying between nine and ten; read as table
    rows (underlying call, result kind, sentinel) the nine lines are the
    nine rows of the spec's table, in the table's order; every function
    of the file is the expansion of the one macro on one line; every row
    of the table pairs a handle with [NULL] and an integer with [-1]; and
    the nested file adds no operation that is not in the table. *)
Theorem operations_match_table :
  map row_of MupdfWrapper.invocations = map Some spec_table
  /\ (9 <= List.length MupdfWrapper.invocations <= 10)%nat
  /\ (forall L : Library,
         @MupdfWrapper.functions L =
         map (fun i => MupdfWrapper.WRAP (name i) (ret_type i) (failure_val i)
                         (call i) (va_args i))
             MupdfWrapper.invocations)
  /\ Forall (fun r => row_sentinel r = sentinel_of (row_kind r)) spec_table
  /\ incl (map row_of Mupdf.invocations) (map Some spec_table).
Proof.
  split; [reflexivity|].
  split; [simpl; lia|].
  split; [intros L; reflexivity|].
  split.
  - repeat constructor.
  - intros r H. simpl in H.
    repeat (destruct H as [<- | H]; [simpl; tauto|]). contradiction.
Qed.

Local Open Scope string_scope.

(** The name of a generated function determines the line it comes from. *)
Lemma same_name_same_line (i1 i2 : invocation) :
  In i1 Mupdf.invocations ->
  In i2 MupdfWrapper.invocations ->
  name i1 = name i2 ->
  i1 = i2.
Proof.
  simpl. intros H1 H2.
  repeat (destruct H1 as [<- | H1]; [|]); try contradiction;
    repeat (destruct H2 as [<- | H2]; [|]); try contradiction;
    intros E; first [reflexivity | discriminate E].
Qed.

Lemma mp_prefix_injective (a b : string) : "mp_" ++ a = "mp_" ++ b -> a = b.
Proof. simpl. intros [= E]. exact E. Qed.

(** C6 (the two files agree).  Take a function of the nested file and a
    function of the top-level file with the same C name.  They come from
    the same [WRAP] line (same underlying call, same sentinel); they have
    the same return type and the same parameters; their bodies do the
    same on every environment and frame; and calling one or the other on
    any arguments and any machine gives the same result and the same
    machine.  The functions that the two files share are the four of the
    nested file, all of whose lines are lines of the top-level file. *)
Theorem duplicated_functions_agree (L : Library) (i1 i2 : invocation) :
  In i1 Mupdf.invocations ->
  In i2 MupdfWrapper.invocations ->
  fn_name (Mupdf.expand i1) = fn_name (MupdfWrapper.expand i2) ->
  (i1 = i2
   /\ fn_ret_type (Mupdf.expand i1) = fn_ret_type (MupdfWrapper.expand i2)
   /\ fn_params (Mupdf.expand i1) = fn_params (MupdfWrapper.expand i2)
   /\ (forall rho fr,
          fn_body (Mupdf.expand i1) rho fr
          = fn_body (MupdfWrapper.expand i2) rho fr)
   /\ (forall vs m,
          call_function (Mupdf.expand i1) vs m
          = call_function (MupdfWrapper.expand i2) vs m))
  /\ incl Mupdf.invocations MupdfWrapper.invocations
  /\ map (fun i => fn_name (Mupdf.expand i)) Mupdf.invocations
     = ["mp_open_document"; "mp_count_pages"; "mp_load_outline";
        "mp_load_page"].
Proof.
  intros H1 H2 E.
  assert (i1 = i2) as <-.
  { apply (same_name_same_line i1 i2 H1 H2).
    apply mp_prefix_injective. exact E. }
  split; [|split].
  - repeat split; reflexivity.
  - intros i H. simpl in H |- *.
    repeat (destruct H as [<- | H]; [tauto|]). contradiction.
  - reflexivity.
Qed.

(** [mp_load_page] of the one file and of the other. *)
Lemma duplicated_functions_agree_witness :
  fn_name (L := Stub.lib) (Mupdf.expand Mupdf.load_page)
    = fn_name (L := Stub.lib) (MupdfWrapper.expand MupdfWrapper.load_page)
  /\ call_function (L := Stub.lib) (Mupdf.expand Mupdf.load_page)
       [Stub.ctx0; Vptr 1; Vint 2] (Stub.on Stub.opened)
     = call_function (MupdfWrapper.expand MupdfWrapper.load_page)
         [Stub.ctx0; Vptr 1; Vint 2] (Stub.on Stub.opened).
Proof.
  split.
  - reflexivity.
  - apply (duplicated_functions_agree Stub.lib Mupdf.load_page
             MupdfWrapper.load_page).
    + simpl. tauto.
    + simpl. tauto.
    + reflexivity.
Defined.

(** C7 (signatures).  For every operation of either file: the function is
    named [mp_] followed by a stem, and the underlying call is [fz_]
    followed by the same stem; its first parameter is [fz_context *ctx];
    its parameters, in order, are the arguments of the underlying call,
    in order, so the parameters after [ctx] are the call's arguments
    after [ctx]; and its return type is a pointer or [int]. *)
Theorem signature_mirrors_call (L : Library) (f : source_file)
    (i : invocation) :
  In i (invocations_of f) ->
  (exists stem,
      fn_name (expand_in f i) = "mp_" ++ stem
      /\ callee (call i) = "fz_" ++ stem)
  /\ hd_error (fn_params (expand_in f i)) = Some (Tptr fz_context, "ctx")
  /\ map snd (fn_params (expand_in f i)) = call_args (call i)
  /\ map snd (tl (fn_params (expand_in f i))) = tl (call_args (call i))
  /\ (kind_of (fn_ret_type (expand_in f i)) = Some Handle
      \/ kind_of (fn_ret_type (expand_in f i)) = Some Integer).
Proof.
  destruct f; simpl; intros H;
    repeat (destruct H as [<- | H];
            [split; [eexists; split; reflexivity|];
             repeat split; (reflexivity || (left; reflexivity)
                            || (right; reflexivity))|]);
    contradiction.
Qed.

(** [mp_new_pixmap_from_page] takes [ctx, page, mat, cs, alpha], the
    arguments of [fz_new_pixmap_from_page]. *)
Lemma signature_mirrors_call_witness :
  map snd (fn_params (expand_in (L := Stub.lib) mupdf_wrapper_c
                        MupdfWrapper.new_pixmap_from_page))
  = ["ctx"; "page"; "mat"; "cs"; "alpha"].
Proof.
  apply (signature_mirrors_call Stub.lib mupdf_wrapper_c
           MupdfWrapper.new_pixmap_from_page).
  simpl. tauto.
Defined.

(** *** Counting pages *)

(** C5, as stated, fails: counting the pages of a null document.  The
    library answers 0 without throwing, as MuPDF's [fz_count_pages]
    does, and [mp_count_pages], which does not look at the handle,
    returns that 0 and not [-1]. *)
Lemma count_pages_null_handle :
  returned (mp (L := Stub.lib) mupdf_wrapper_c MupdfWrapper.count_pages
              Stub.ctx0 [NULL] (Stub.on Stub.opened))
    = Done (Vint 0)
  /\ returned (mp (L := Stub.lib) mupdf_wrapper_c MupdfWrapper.count_pages
                 Stub.ctx0 [NULL] (Stub.on Stub.opened))
     <> Done (Vint (-1)).
Proof. split; [reflexivity | discriminate]. Qed.

(** The small library keeps the contract of [fz_count_pages] on its
    validly-opened documents. *)
Lemma stub_counts_valid_documents (w : Stub.stub_world) (c d : val) (n : Z) :
  Stub.page_count w d = Some n ->
  0 <= n
  /\ fst (@fz_call Stub.lib "fz_count_pages" [c; d] w) = Returns (Vint n).
Proof.
  destruct d as [k|a|fs]; simpl; try discriminate.
  destruct (Z.eqb a 0) eqn:Ea; [discriminate|].
  destruct (Stub.assoc a (Stub.documents w)) as [p|] eqn:Ep;
    [|discriminate].
  destruct (Z.leb 0 p) eqn:Hp; [|discriminate].
  intros [= <-]. split.
  - apply Z.leb_le. exact Hp.
  - unfold Stub.stub_call. simpl. rewrite Ea, Ep. reflexivity.
Qed.

(** C5, amended.  Let [page_count] say which handles are validly-opened
    documents in a library state, and with how many pages, and let the
    library keep the contract of [fz_count_pages]: on such a handle the
    call completes normally with that count, which is not negative.
    Then [mp_count_pages], from either file:
    - on a validly-opened handle returns the document's true page count,
      an integer that is at least 0;
    - on any handle, null and invalid ones included, returns [-1] exactly
      when [fz_count_pages] throws or itself returns [-1];
    - never returns [-1] for a validly-opened handle;
    - and whenever [fz_count_pages] completes normally, returns what it
      returned. *)
Theorem count_pages_follows_library (L : Library)
    (page_count : world -> val -> option Z) (f : source_file)
    (ctx doc : val) (m : machine) :
  (forall w c d n,
      page_count w d = Some n ->
      0 <= n /\ fst (fz_call "fz_count_pages" [c; d] w) = Returns (Vint n)) ->
  (forall n,
      page_count (lib_state m) doc = Some n ->
      returned (mp f MupdfWrapper.count_pages ctx [doc] m) = Done (Vint n)
      /\ 0 <= n)
  /\ (returned (mp f MupdfWrapper.count_pages ctx [doc] m) = Done (Vint (-1))
      <-> ((exists e,
              fst (fz_call "fz_count_pages" [ctx; doc] (lib_state m))
              = Throws e)
           \/ fst (fz_call "fz_count_pages" [ctx; doc] (lib_state m))
              = Returns (Vint (-1))))
  /\ (returned (mp f MupdfWrapper.count_pages ctx [doc] m) = Done (Vint (-1))
      -> page_count (lib_state m) doc = None)
  /\ (forall v,
         fst (fz_call "fz_count_pages" [ctx; doc] (lib_state m)) = Returns v ->
         returned (mp f MupdfWrapper.count_pages ctx [doc] m) = Done v).
Proof.
  intros Hlib.
  rewrite (mp_run f MupdfWrapper.count_pages ctx [doc] m);
    [|reflexivity|reflexivity].
  unfold returned. cbn [fst MupdfWrapper.count_pages call callee].
  pose proof (Hlib (lib_state m) ctx doc) as Hdoc.
  destruct (fz_call "fz_count_pages" [ctx; doc] (lib_state m))
    as [[u|e] w']; cbn [fst value_of failure_val] in *.
  - split; [|split; [|split]].
    + intros n Hn. destruct (Hdoc n Hn) as [Hpos [= ->]].
      split; [reflexivity | exact Hpos].
    + split.
      * intros [= ->]. right. reflexivity.
      * intros [[e He] | [= ->]]; [discriminate He | reflexivity].
    + intros [= ->].
      destruct (page_count (lib_state m) doc) as [n|] eqn:Hn;
        [|reflexivity].
      destruct (Hdoc n eq_refl) as [Hpos [= <-]]. lia.
    + intros v [= ->]. reflexivity.
  - split; [|split; [|split]].
    + intros n Hn. destruct (Hdoc n Hn) as [_ Hr]. discriminate Hr.
    + split; [intros _; left; exists e; reflexivity | reflexivity].
    + intros _.
      destruct (page_count (lib_state m) doc) as [n|] eqn:Hn;
        [|reflexivity].
      destruct (Hdoc n eq_refl) as [_ Hr]. discriminate Hr.
    + intros v Hr. discriminate Hr.
Qed.

(** Document 1 is validly opened and has three pages. *)
Lemma count_pages_follows_library_witness :
  Stub.page_count Stub.opened (Vptr 1) = Some 3
  /\ returned (mp (L := Stub.lib) mupdf_c MupdfWrapper.count_pages
                 Stub.ctx0 [Vptr 1] (Stub.on Stub.opened)) = Done (Vint 3)
  /\ 0 <= 3.
Proof.
  split.
  - reflexivity.
  - apply (proj1 (count_pages_follows_library Stub.lib Stub.page_count
                    mupdf_c Stub.ctx0 (Vptr 1) (Stub.on Stub.opened)
                    stub_counts_valid_documents) 3).
    reflexivity.
Defined.

(** *** What a caller can conclude from the returned value *)

(** X1.  For every operation of either file: if the adapter returns a
    value other than the sentinel of its [WRAP] line, the underlying
    MuPDF call completed normally and that value is its result. *)
Theorem non_sentinel_means_success (L : Library) (f : source_file)
    (i : invocation) (ctx : val) (args : list val) (m : machine) (v : val) :
  In i (invocations_of f) ->
  List.length args = List.length (va_args i) ->
  returned (mp f i ctx args m) = Done v ->
  v <> failure_val i ->
  fst (fz_call (callee (call i)) (ctx :: args) (lib_state m)) = Returns v.
Proof.
  intros Hin Hlen Hret Hv.
  rewrite (mp_run f i ctx args m (lines_forward_params f i Hin) Hlen) in Hret.
  unfold returned in Hret. simpl in Hret.
  destruct (fz_call (callee (call i)) (ctx :: args) (lib_state m))
    as [[u|e] w']; simpl in *.
  - now injection Hret as ->.
  - injection Hret as <-. contradiction.
Qed.

(** [mp_load_page] gave a non-null pointer: [fz_load_page] returned it. *)
Lemma non_sentinel_means_success_witness :
  Vptr 1002 <> failure_val MupdfWrapper.load_page
  /\ fst (@fz_call Stub.lib "fz_load_page" [Stub.ctx0; Vptr 1; Vint 2]
            Stub.opened)
     = Returns (Vptr 1002).
Proof.
  split.
  - discriminate.
  - apply (non_sentinel_means_success Stub.lib mupdf_wrapper_c
             MupdfWrapper.load_page Stub.ctx0 [Vptr 1; Vint 2]
             (Stub.on Stub.opened) (Vptr 1002)).
    + simpl. tauto.
    + reflexivity.
    + reflexivity.
    + discriminate.
Defined.

(** X2.  For every operation of either file: the adapter returns the
    sentinel of its [WRAP] line exactly when the underlying MuPDF call
    threw or itself returned that same value.  A sentinel return thus
    does not by itself show that the call failed. *)
Theorem sentinel_return_cases (L : Library) (f : source_file)
    (i : invocation) (ctx : val) (args : list val) (m : machine) :
  In i (invocations_of f) ->
  List.length args = List.length (va_args i) ->
  returned (mp f i ctx args m) = Done (failure_val i)
  <-> ((exists e,
          fst (fz_call (callee (call i)) (ctx :: args) (lib_state m))
          = Throws e)
       \/ fst (fz_call (callee (call i)) (ctx :: args) (lib_state m))
          = Returns (failure_val i)).
Proof.
  intros Hin Hlen.
  rewrite (mp_run f i ctx args m (lines_forward_params f i Hin) Hlen).
  unfold returned. simpl.
  destruct (fz_call (callee (call i)) (ctx :: args) (lib_state m))
    as [[u|e] w']; simpl; split.
  - intros [= ->]. right. reflexivity.
  - intros [[e He] | [= ->]]; [discriminate He | reflexivity].
  - intros _. left. exists e. reflexivity.
  - intros _. reflexivity.
Qed.

(** Handle 9 is no document: [fz_count_pages] throws, the adapter gives
    [-1]. *)
Lemma sentinel_return_cases_witness :
  returned (mp (L := Stub.lib) mupdf_c Mupdf.count_pages
              Stub.ctx0 [Vptr 9] (Stub.on Stub.opened))
    = Done (failure_val Mupdf.count_pages)
  <-> ((exists e,
          fst (@fz_call Stub.lib (callee (call Mupdf.count_pages))
                 [Stub.ctx0; Vptr 9] Stub.opened) = Throws e)
       \/ fst (@fz_call Stub.lib (callee (call Mupdf.count_pages))
                 [Stub.ctx0; Vptr 9] Stub.opened)
          = Returns (failure_val Mupdf.count_pages)).
Proof.
  apply (sentinel_return_cases Stub.lib mupdf_c Mupdf.count_pages
           Stub.ctx0 [Vptr 9] (Stub.on Stub.opened)).
  - simpl. tauto.
  - reflexivity.
Defined.

(** *** Sequences of calls *)

Import Caller.

(** X3.  Any sequence of well-formed adapted calls runs to its end: every
    call returns normally, also after an earlier call has failed; the
    library is entered once per call, in program order, with the caller's
    arguments; and the library ends in the state those calls, and no
    others, leave it in. *)
Theorem calls_in_sequence (L : Library) (f : source_file)
    (cs : list statement) :
  forall m : machine,
    Forall (well_formed f) cs ->
    calls (snd (run_calls f cs m)) = (calls m ++ map event_of cs)%list
    /\ lib_state (snd (run_calls f cs m))
       = library_after (map event_of cs) (lib_state m)
    /\ List.length (fst (run_calls f cs m)) = List.length cs
    /\ Forall (fun o => exists v, o = Done v) (fst (run_calls f cs m)).
Proof.
  induction cs as [|c cs IH]; intros m Hwf.
  - simpl. rewrite app_nil_r. repeat split. constructor.
  - inversion Hwf as [|c' cs' [Hin Hlen] Hrest]; subst.
    simpl.
    rewrite (mp_run f (line c) (context c) (actuals c) m
               (lines_forward_params f _ Hin) Hlen).
    cbv zeta.
    set (r := fz_call (callee (call (line c))) (context c :: actuals c)
                (lib_state m)).
    set (m1 := after_call m (callee (call (line c)))
                 (context c :: actuals c) (snd r)).
    destruct (IH m1 Hrest) as (Hc & Hs & Hl & Hd).
    destruct (run_calls f cs m1) as [os m2]. simpl in *.
    repeat split.
    + rewrite Hc. unfold m1, after_call, event_of. simpl.
      rewrite <- app_assoc. reflexivity.
    + rewrite Hs. reflexivity.
    + now rewrite Hl.
    + constructor; [eexists; reflexivity | exact Hd].
Qed.

(** A failed open, a successful open, then a page count. *)
Lemma calls_in_sequence_witness :
  calls (snd (run_calls (L := Stub.lib) mupdf_wrapper_c
                [ {| line := MupdfWrapper.open_document;
                     context := Stub.ctx0; actuals := [Vptr 101] |};
                  {| line := MupdfWrapper.open_document;
                     context := Stub.ctx0; actuals := [Vptr 100] |};
                  {| line := MupdfWrapper.count_pages;
                     context := Stub.ctx0; actuals := [Vptr 1] |} ]
                (Stub.on Stub.fresh)))
  = [ ("fz_open_document", [Stub.ctx0; Vptr 101]);
      ("fz_open_document", [Stub.ctx0; Vptr 100]);
      ("fz_count_pages", [Stub.ctx0; Vptr 1]) ].
Proof.
  apply (calls_in_sequence Stub.lib mupdf_wrapper_c
           [ {| line := MupdfWrapper.open_document;
                context := Stub.ctx0; actuals := [Vptr 101] |};
             {| line := MupdfWrapper.open_document;
                context := Stub.ctx0; actuals := [Vptr 100] |};
             {| line := MupdfWrapper.count_pages;
                context := Stub.ctx0; actuals := [Vptr 1] |} ]
           (Stub.on Stub.fresh)).
  repeat constructor; simpl; tauto.
Defined.

(** X4.  A caller that uses only functions of the nested file can be
    built against the top-level file instead: every one of its calls
    names a function the top-level file has too, and the whole sequence
    gives the same outcomes and leaves the same machine. *)
Theorem nested_file_replaceable (L : Library) (cs : list statement) :
  forall m : machine,
    Forall (well_formed mupdf_c) cs ->
    Forall (well_formed mupdf_wrapper_c) cs
    /\ run_calls mupdf_c cs m = run_calls mupdf_wrapper_c cs m.
Proof.
  induction cs as [|c cs IH]; intros m Hwf.
  - split; [constructor | reflexivity].
  - inversion Hwf as [|c' cs' [Hin Hlen] Hrest]; subst.
    assert (Hin' : In (line c) (invocations_of mupdf_wrapper_c)).
    { simpl in Hin |- *.
      repeat (destruct Hin as [<- | Hin]; [tauto|]). contradiction. }
    split.
    + constructor; [split; assumption | apply (IH m Hrest)].
    + simpl.
      pose proof (lines_forward_params _ _ Hin) as Hf.
      rewrite (mp_run mupdf_c (line c) (context c) (actuals c) m Hf Hlen).
      rewrite (mp_run mupdf_wrapper_c (line c) (context c) (actuals c) m
                 Hf Hlen).
      cbv beta iota zeta.
      rewrite (proj2 (IH _ Hrest)). reflexivity.
Qed.

(** Opening a document and counting its pages, against either file. *)
Lemma nested_file_replaceable_witness :
  run_calls (L := Stub.lib) mupdf_c
    [ {| line := Mupdf.open_document;
         context := Stub.ctx0; actuals := [Vptr 100] |};
      {| line := Mupdf.count_pages;
         context := Stub.ctx0; actuals := [Vptr 1] |} ]
    (Stub.on Stub.fresh)
  = run_calls (L := Stub.lib) mupdf_wrapper_c
      [ {| line := Mupdf.open_document;
           context := Stub.ctx0; actuals := [Vptr 100] |};
        {| line := Mupdf.count_pages;
           context := Stub.ctx0; actuals := [Vptr 1] |} ]
      (Stub.on Stub.fresh).
Proof.
  apply (nested_file_replaceable Stub.lib
           [ {| line := Mupdf.open_document;
                context := Stub.ctx0; actuals := [Vptr 100] |};
             {| line := Mupdf.count_pages;
                context := Stub.ctx0; actuals := [Vptr 1] |} ]
           (Stub.on Stub.fresh)).
  repeat constructor; simpl; tauto.
Defined.
